(** * kitty/borders.py: padding and border rectangles of the terminal

    A shallow embedding of [kitty/borders.py] and the properties its
    specification states about it.

    Numbers.  Pixel coordinates, the viewport size, the border width and the
    colour indices are Python [int]s: they are [Z] here.  The clip-space
    coordinates that [to_opengl] computes are Python floats, and the
    [GLfloat] array they are stored in holds C floats: both are modelled by
    exact rationals ([Qc], canonical fractions, so that equality of values
    is Leibniz equality).  Rounding is outside the model.  A ctypes array
    is the list of its elements, with its bounds check written out. *)

From Stdlib Require Import ZArith QArith Qcanon Qround Lia Lqa.
From Stdlib Require Import String.
From stdpp Require Import base list.

(** ** Python exceptions as an error monad *)

Inductive exn : Type :=
  | ZeroDivisionError
  | IndexError.

Definition M (A : Type) : Type := (exn + A)%type.

Definition ret {A : Type} (a : A) : M A := inr a.
Definition raise {A : Type} (e : exn) : M A := inl e.
Definition bind {A B : Type} (m : M A) (k : A -> M B) : M B :=
  match m with
  | inl e => inl e
  | inr a => k a
  end.

Declare Scope py_scope.
Delimit Scope py_scope with py.
Notation "x <- m ;; k" := (bind m (fun x => k))
  (at level 100, m at next level, right associativity) : py_scope.
Open Scope py_scope.

(** [for x in xs: body], the body updating the loop's state and possibly
    raising. *)
Fixpoint for_each {A St : Type} (xs : list A) (body : A -> St -> M St)
    (s : St) : M St :=
  match xs with
  | [] => ret s
  | x :: xs' => s' <- body x s ;; for_each xs' body s'
  end.

(** [for i, x in enumerate(xs): body], counting from [i]. *)
Fixpoint for_enumerate {A St : Type} (i : nat) (xs : list A)
    (body : nat -> A -> St -> M St) (s : St) : M St :=
  match xs with
  | [] => ret s
  | x :: xs' => s' <- body i x s ;; for_enumerate (S i) xs' body s'
  end.

(** ** Numbers *)

Definition of_int (z : Z) : Qc := Q2Qc (inject_Z z).

(** [a / b] on two Python ints: true division, a float. *)
Definition int_truediv (a b : Z) : M Qc :=
  if (b =? 0)%Z then raise ZeroDivisionError
  else ret (of_int a / of_int b)%Qc.

(** What a Python list of numbers holds: the [rects] list mixes the floats
    of [to_opengl] with the int colour index. *)
Inductive pynum : Type :=
  | PyInt (z : Z)
  | PyFloat (q : Qc).

(** Modelled from the spec: the element types [GLfloat], [GLint] and
    [GLuint] of [kitty/constants.py], which is not among the sources.  The
    specification describes the buffers as explicitly sized, contiguous
    numeric arrays of clip-space scalars, start offsets and vertex counts,
    and gives their elements no width: storing a number in an element keeps
    its value, an int stored in a [GLfloat] becoming a float. *)
Definition GLfloat_of (v : pynum) : Qc :=
  match v with
  | PyInt z => of_int z
  | PyFloat q => q
  end.

(** Modelled from the spec: storing an int in a [GLint] element (a start
    offset), the element type of [kitty/constants.py] as above. *)
Definition GLint_of (z : Z) : Z := z.

(** Modelled from the spec: storing an int in a [GLuint] element (a vertex
    count), the element type of [kitty/constants.py] as above. *)
Definition GLuint_of (z : Z) : Z := z.

(** [arr[i] = v] on a ctypes array: out of range raises [IndexError]. *)
Definition array_set {A : Type} (arr : list A) (i : nat) (v : A) : M (list A) :=
  if (i <? length arr)%nat then ret (<[i:=v]> arr) else raise IndexError.

(** [min(...)] and [max(...)] over a non-empty iterable of ints, given as
    its first element and the rest. *)
Definition py_min (x : Z) (xs : list Z) : Z := fold_left Z.min xs x.
Definition py_max (x : Z) (xs : list Z) : Z := fold_left Z.max xs x.

(** [round(q)] with one argument: the nearest int, ties to the even one. *)
Definition py_round (q : Qc) : Z :=
  let f := Qfloor q in
  match (q - of_int f ?= Q2Qc (1 # 2))%Qc with
  | Lt => f
  | Gt => (f + 1)%Z
  | Eq => if Z.even f then f else (f + 1)%Z
  end.

(** ** Windows

    A window is a Python object: [obj_id] is its identity (what [is]
    compares), [geometry] its attribute of that name. *)

Module Geometry.
Record t : Type := { left : Z; top : Z; right : Z; bottom : Z }.
End Geometry.

Record Window : Type := {
  obj_id : positive;
  geometry : Geometry.t
}.

(** [w is a], where [a] is a window or [None]. *)
Definition is_ (w : Window) (a : option Window) : bool :=
  match a with
  | Some w' => (obj_id w =? obj_id w')%positive
  | None => false
  end.

(** ** The module's environment

    [viewport_size] is a module-level global of [kitty/constants.py];
    [available_height()] is a function of [kitty/layout.py].  Neither is
    among the sources: their current values are the environment of every
    function below. *)

Record Env : Type := {
  viewport_width : Z;
  viewport_height : Z;
  available_height : Z
}.

Section WithEnv.

Variable env : Env.

(** [to_opengl(x, y)], borders.py lines 19-20. *)
Definition to_opengl (x y : Z) : M (Qc * Qc) :=
  qx <- int_truediv (2 * x) (viewport_width env) ;;
  qy <- int_truediv (2 * y) (viewport_height env) ;;
  ret ((of_int (-1) + qx)%Qc, (of_int 1 - qy)%Qc).

(** [as_rect(left, top, right, bottom, color=0)], lines 23-28: the
    generator, run to its end, as the list of the values it yields. *)
Definition as_rect (left top right bottom : Z) (color : Z) : M (list pynum) :=
  for_each [(right, top); (right, bottom); (left, bottom); (left, top)]
    (fun '(x, y) out =>
       p <- to_opengl x y ;;
       let '(x', y') := p in
       ret (out ++ [PyFloat x'; PyFloat y'; PyInt color]))
    [].

End WithEnv.

(** ** The shader program, lines 31-57

    The calls that reach the GPU, in the order they are made.
    [send_vertex_data], entering and leaving the program ([with program:])
    are methods of [ShaderProgram] in [kitty/shaders.py], [glUniform3fv]
    and [glMultiDrawArrays] functions of [kitty/fast_data_types]: each is
    recorded as an event. *)

Inductive gl_mode : Type := GL_TRIANGLE_FAN.

Inductive gl_call : Type :=
  | program_enter
  | program_exit
  | send_vertex_data (name : string) (data : list Qc)
  | glUniform3fv (uniform : string) (count : Z) (buf : list Qc)
  | glMultiDrawArrays (mode : gl_mode) (first : list Z) (count : list Z)
      (drawcount : nat).

Module BordersProgram.

(** [send_data(data)], lines 53-54. *)
Definition send_data (data : list Qc) : list gl_call :=
  [send_vertex_data "rect" data].

(** [set_colors(color_buf)], lines 56-57: three [vec3] are sent. *)
Definition set_colors (color_buf : list Qc) : list gl_call :=
  [glUniform3fv "colors" 3 color_buf].

End BordersProgram.

(** ** class Borders, lines 60-127 *)

Record Options : Type := {
  window_border_width : Qc;
  background : Z * Z * Z;
  active_border_color : Z * Z * Z;
  inactive_border_color : Z * Z * Z
}.

(** The attributes of a [Borders] object.  [num_of_rects], [rects],
    [starts] and [counts] are first assigned by [__call__]; before that
    they are shown empty, and [render] does not read them while
    [can_render] is false.  The lock is not part of the state: the
    functions below are its critical sections, run one at a time. *)
Record Borders : Type := {
  is_dirty : bool;
  can_render : bool;
  border_width : Z;
  color_buf : list Qc;
  num_of_rects : nat;
  rects : list Qc;
  starts : list Z;
  counts : list Z
}.

Definition set_is_dirty (v : bool) (b : Borders) : Borders :=
  {| is_dirty := v; can_render := can_render b;
     border_width := border_width b; color_buf := color_buf b;
     num_of_rects := num_of_rects b; rects := rects b;
     starts := starts b; counts := counts b |}.

Definition set_can_render (v : bool) (b : Borders) : Borders :=
  {| is_dirty := is_dirty b; can_render := v;
     border_width := border_width b; color_buf := color_buf b;
     num_of_rects := num_of_rects b; rects := rects b;
     starts := starts b; counts := counts b |}.

Definition set_num_of_rects (v : nat) (b : Borders) : Borders :=
  {| is_dirty := is_dirty b; can_render := can_render b;
     border_width := border_width b; color_buf := color_buf b;
     num_of_rects := v; rects := rects b;
     starts := starts b; counts := counts b |}.

Definition set_rects (v : list Qc) (b : Borders) : Borders :=
  {| is_dirty := is_dirty b; can_render := can_render b;
     border_width := border_width b; color_buf := color_buf b;
     num_of_rects := num_of_rects b; rects := v;
     starts := starts b; counts := counts b |}.

Definition set_starts (v : list Z) (b : Borders) : Borders :=
  {| is_dirty := is_dirty b; can_render := can_render b;
     border_width := border_width b; color_buf := color_buf b;
     num_of_rects := num_of_rects b; rects := rects b;
     starts := v; counts := counts b |}.

Definition set_counts (v : list Z) (b : Borders) : Borders :=
  {| is_dirty := is_dirty b; can_render := can_render b;
     border_width := border_width b; color_buf := color_buf b;
     num_of_rects := num_of_rects b; rects := rects b;
     starts := starts b; counts := v |}.

(** [as_color(c)], lines 15-16.  The divisor is the constant 255, so the
    division cannot raise. *)
Definition as_color (c : Z * Z * Z) : list Qc :=
  let '(c0, c1, c2) := c in
  [(of_int c0 / of_int 255)%Qc; (of_int c1 / of_int 255)%Qc;
   (of_int c2 / of_int 255)%Qc].

(** [Borders.__init__(opts)], lines 62-73.  [dpi_logical] is what
    [get_dpi()['logical']] of [kitty/utils.py] returns. *)
Definition init (dpi_logical : Qc * Qc) (opts : Options) : Borders :=
  let '(dpix, dpiy) := dpi_logical in
  let dpi := ((dpix + dpiy) / of_int 2)%Qc in
  {| is_dirty := false;
     can_render := false;
     border_width :=
       py_round (window_border_width opts * dpi / of_int 72)%Qc;
     color_buf :=
       as_color (background opts) ++ as_color (active_border_color opts)
       ++ as_color (inactive_border_color opts);
     num_of_rects := 0; rects := []; starts := []; counts := [] |}.

(** [rects.extend(gen)]: the generator is run to its end; an exception in
    it leaves [__call__] before [rects] is looked at again. *)
Definition extend (rects : list pynum) (gen : M (list pynum))
  : M (list pynum) :=
  ys <- gen ;; ret (rects ++ ys).

Section Call.

Variable env : Env.

(** Lines 76-85: the left, right, top and bottom edges of the windows'
    bounding box. *)
Definition edges (windows : list Window) : Z * Z * Z * Z :=
  let vw := viewport_width env in
  let vh := available_height env in
  match windows with
  | w :: ws =>
      (py_min (Geometry.left (geometry w))
         (map (fun w => Geometry.left (geometry w)) ws),
       py_max (Geometry.right (geometry w))
         (map (fun w => Geometry.right (geometry w)) ws),
       py_min (Geometry.top (geometry w))
         (map (fun w => Geometry.top (geometry w)) ws),
       py_max (Geometry.bottom (geometry w))
         (map (fun w => Geometry.bottom (geometry w)) ws))
  | [] => (0, vw, 0, vh)%Z
  end.

(** Lines 76-94: the padding around the bounding box. *)
Definition padding_rects (windows : list Window) : M (list pynum) :=
  let vw := viewport_width env in
  let vh := available_height env in
  let '(left_edge, right_edge, top_edge, bottom_edge) := edges windows in
  let rects := [] in
  rects <- (if (left_edge >? 0)%Z
            then extend rects (as_rect env 0 0 left_edge vh 0)
            else ret rects) ;;
  rects <- (if (top_edge >? 0)%Z
            then extend rects (as_rect env 0 0 vw top_edge 0)
            else ret rects) ;;
  rects <- (if (right_edge <? vw)%Z
            then extend rects (as_rect env right_edge 0 vw vh 0)
            else ret rects) ;;
  rects <- (if (bottom_edge <? vh)%Z
            then extend rects (as_rect env 0 bottom_edge vw vh 0)
            else ret rects) ;;
  ret rects.

(** Lines 98-103: the body of the loop over the windows. *)
Definition border_step (bw : Z) (active_window : option Window) (w : Window)
    (rects : list pynum) : M (list pynum) :=
  let g := geometry w in
  let color := if is_ w active_window then 1%Z else 2%Z in
  rects <- extend rects
    (as_rect env (Geometry.left g - bw) (Geometry.top g - bw)
       (Geometry.left g) (Geometry.bottom g + bw) color) ;;
  rects <- extend rects
    (as_rect env (Geometry.left g - bw) (Geometry.top g - bw)
       (Geometry.right g + bw) (Geometry.top g) color) ;;
  rects <- extend rects
    (as_rect env (Geometry.right g) (Geometry.top g - bw)
       (Geometry.right g + bw) (Geometry.bottom g + bw) color) ;;
  rects <- extend rects
    (as_rect env (Geometry.left g - bw) (Geometry.bottom g)
       (Geometry.right g + bw) (Geometry.bottom g + bw) color) ;;
  ret rects.

(** Lines 95-103: the border of every window, appended to [rects]. *)
Definition border_rects (self : Borders) (windows : list Window)
    (active_window : option Window) (draw_window_borders : bool)
    (rects : list pynum) : M (list pynum) :=
  if draw_window_borders && (border_width self >? 0)%Z then
    let bw := border_width self in
    for_each windows (border_step bw active_window) rects
  else ret rects.

(** The body of the loop of lines 109-114. *)
Definition pack_step (i : nat) (x : pynum) (self : Borders) : M Borders :=
  r <- array_set (rects self) i (GLfloat_of x) ;;
  let self := set_rects r self in
  if (i mod 12 =? 0)%nat then
    let idx := (i / 12)%nat in
    s <- array_set (starts self) idx (GLint_of (Z.of_nat (i / 3))) ;;
    let self := set_starts s self in
    c <- array_set (counts self) idx (GLuint_of 4) ;;
    ret (set_counts c self)
  else ret self.

(** Lines 104-116: the arrays handed to the GPU, built under the lock. *)
Definition pack (self : Borders) (rects : list pynum) : M Borders :=
  let self := set_num_of_rects (length rects / 12)%nat self in
  let self :=
    set_rects (replicate (length rects) (GLfloat_of (PyInt 0))) self in
  let self := set_starts (replicate (num_of_rects self) (GLint_of 0)) self in
  let self := set_counts (replicate (num_of_rects self) (GLuint_of 0)) self in
  self <- for_enumerate 0 rects pack_step self ;;
  let self := set_is_dirty true self in
  ret (set_can_render true self).

(** [Borders.__call__(windows, active_window, draw_window_borders)],
    lines 75-116. *)
Definition call (self : Borders) (windows : list Window)
    (active_window : option Window) (draw_window_borders : bool)
  : M Borders :=
  rects <- padding_rects windows ;;
  rects <- border_rects self windows active_window draw_window_borders rects ;;
  pack self rects.

End Call.

(** [Borders.render(program)], lines 118-127: the new state and the GPU
    calls made, in order. *)
Definition render (self : Borders) : Borders * list gl_call :=
  if negb (can_render self) then (self, [])
  else
    let '(self, upload) :=
      if is_dirty self
      then (set_is_dirty false self,
            BordersProgram.send_data (rects self)
            ++ BordersProgram.set_colors (color_buf self))
      else (self, []) in
    (self,
     [program_enter] ++ upload
     ++ [glMultiDrawArrays GL_TRIANGLE_FAN (starts self) (counts self)
           (num_of_rects self)]
     ++ [program_exit]).

(** ** The vocabulary of the specification

    The definitions below follow the words of the specification; the
    theorems compare them with the functions above. *)

(** ColorIndex: Background = 0, ActiveBorder = 1, InactiveBorder = 2. *)
Inductive ColorIndex : Type := Background | ActiveBorder | InactiveBorder.

Definition color_index (c : ColorIndex) : Z :=
  match c with
  | Background => 0
  | ActiveBorder => 1
  | InactiveBorder => 2
  end.

(** A rectangle (left, top) -> (right, bottom) in device pixels, with its
    colour. *)
Record Rect : Type := {
  r_left : Z;
  r_top : Z;
  r_right : Z;
  r_bottom : Z;
  r_color : ColorIndex
}.

Section Spec.

Variable env : Env.

(** CoordinateMapper: cx = -1 + 2x/width. *)
Definition clip_x (x : Z) : Qc :=
  (of_int (-1) + of_int 2 * of_int x / of_int (viewport_width env))%Qc.

(** CoordinateMapper: cy = 1 - 2y/height. *)
Definition clip_y (y : Z) : Qc :=
  (of_int 1 - of_int 2 * of_int y / of_int (viewport_height env))%Qc.

(** One vertex: the corner in clip space, tagged with the colour index. *)
Definition vertex (x y : Z) (color : Z) : list pynum :=
  [PyFloat (clip_x x); PyFloat (clip_y y); PyInt color].

(** RectEmitter: the corners in the order (right, top), (right, bottom),
    (left, bottom), (left, top). *)
Definition emit (left top right bottom : Z) (color : Z) : list pynum :=
  vertex right top color ++ vertex right bottom color
  ++ vertex left bottom color ++ vertex left top color.

Definition emit_rect (r : Rect) : list pynum :=
  emit (r_left r) (r_top r) (r_right r) (r_bottom r) (color_index (r_color r)).

(** The padding rectangles, in the order of the four tests, around the
    bounding box [edges] computes; the viewport height of these tests is
    the [vh] of [__call__], that is [available_height()]. *)
Definition spec_padding (windows : list Window) : list Rect :=
  let vw := viewport_width env in
  let vh := available_height env in
  let '(left_edge, right_edge, top_edge, bottom_edge) := edges env windows in
  (if (left_edge >? 0)%Z then [Build_Rect 0 0 left_edge vh Background] else [])
  ++ (if (top_edge >? 0)%Z then [Build_Rect 0 0 vw top_edge Background] else [])
  ++ (if (right_edge <? vw)%Z
      then [Build_Rect right_edge 0 vw vh Background] else [])
  ++ (if (bottom_edge <? vh)%Z
      then [Build_Rect 0 bottom_edge vw vh Background] else []).

(** The border ring of one window: the left, top, right and bottom strips. *)
Definition spec_ring (bw : Z) (active_window : option Window) (w : Window)
  : list Rect :=
  let g := geometry w in
  let color := if is_ w active_window then ActiveBorder else InactiveBorder in
  [Build_Rect (Geometry.left g - bw) (Geometry.top g - bw)
     (Geometry.left g) (Geometry.bottom g + bw) color;
   Build_Rect (Geometry.left g - bw) (Geometry.top g - bw)
     (Geometry.right g + bw) (Geometry.top g) color;
   Build_Rect (Geometry.right g) (Geometry.top g - bw)
     (Geometry.right g + bw) (Geometry.bottom g + bw) color;
   Build_Rect (Geometry.left g - bw) (Geometry.bottom g)
     (Geometry.right g + bw) (Geometry.bottom g + bw) color].

(** The border rings of all windows, in window order, drawn only if
    [drawBorders] is true and [borderWidthPx > 0]. *)
Definition spec_borders (bw : Z) (windows : list Window)
    (active_window : option Window) (draw_borders : bool) : list Rect :=
  if draw_borders && (0 <? bw)%Z
  then flat_map (spec_ring bw active_window) windows
  else [].

(** The rectangles of a frame: padding first, then the border rings. *)
Definition spec_frame (bw : Z) (windows : list Window)
    (active_window : option Window) (draw_borders : bool) : list Rect :=
  spec_padding windows ++ spec_borders bw windows active_window draw_borders.

End Spec.

(** A viewport with a zero dimension: [to_opengl] divides by it. *)
Definition zero_viewport (env : Env) : bool :=
  (viewport_width env =? 0)%Z || (viewport_height env =? 0)%Z.

(** The packed frame of a list of scalars: what [pack] leaves in the
    object, written in closed form. *)
Definition packed (self : Borders) (scalars : list pynum) : Borders :=
  let n := (length scalars / 12)%nat in
  {| is_dirty := true;
     can_render := true;
     border_width := border_width self;
     color_buf := color_buf self;
     num_of_rects := n;
     rects := map GLfloat_of scalars;
     starts := map (fun k => (4 * Z.of_nat k)%Z) (seq 0 n);
     counts := replicate n 4%Z |}.

(** The packed frame alone, without the flags and the configuration. *)
Definition frame (self : Borders) : nat * list Qc * list Z * list Z :=
  (num_of_rects self, rects self, starts self, counts self).

(** The points a rectangle covers, its boundary included. *)
Definition covers (r : Rect) (px py : Q) : Prop :=
  (inject_Z (r_left r) <= px)%Q /\ (px <= inject_Z (r_right r))%Q
  /\ (inject_Z (r_top r) <= py)%Q /\ (py <= inject_Z (r_bottom r))%Q.

(** The points inside a window's geometry: its content area, without the
    boundary. *)
Definition inside (g : Geometry.t) (px py : Q) : Prop :=
  (inject_Z (Geometry.left g) < px)%Q /\ (px < inject_Z (Geometry.right g))%Q
  /\ (inject_Z (Geometry.top g) < py)%Q
  /\ (py < inject_Z (Geometry.bottom g))%Q.

(** ** The invariant of the packing loop

    After the first [i] scalars of [scalars] have been stored: the arrays
    keep their lengths, the first [i] elements of [rects] are set, and so
    are the descriptors of the rectangles that start before [i].  The other
    attributes are those of [self0]. *)
Definition pack_inv (scalars : list pynum) (self0 : Borders) (i : nat)
    (self : Borders) : Prop :=
  length (rects self) = length scalars
  /\ length (starts self) = (length scalars / 12)%nat
  /\ length (counts self) = (length scalars / 12)%nat
  /\ (forall j, (j < i)%nat -> rects self !! j = GLfloat_of <$> scalars !! j)
  /\ (forall k, (12 * k < i)%nat ->
        starts self !! k = Some (4 * Z.of_nat k)%Z
        /\ counts self !! k = Some 4%Z)
  /\ is_dirty self = is_dirty self0
  /\ can_render self = can_render self0
  /\ border_width self = border_width self0
  /\ color_buf self = color_buf self0
  /\ num_of_rects self = (length scalars / 12)%nat.

(** ** Sample inputs *)

Definition env_800x600 : Env :=
  {| viewport_width := 800; viewport_height := 600; available_height := 600 |}.

Definition sample_opts : Options :=
  {| window_border_width := of_int 2;
     background := (0, 0, 0)%Z;
     active_border_color := (255, 0, 0)%Z;
     inactive_border_color := (0, 0, 255)%Z |}.

(** A fresh [Borders] at 72 dpi: the border is 2 pixels wide. *)
Definition sample_borders : Borders := init (of_int 72, of_int 72) sample_opts.

Definition window_full : Window :=
  {| obj_id := 1;
     geometry := {| Geometry.left := 0; Geometry.top := 0;
                    Geometry.right := 800; Geometry.bottom := 600 |} |}.

Definition window_small : Window :=
  {| obj_id := 2;
     geometry := {| Geometry.left := 10; Geometry.top := 20;
                    Geometry.right := 400; Geometry.bottom := 300 |} |}.

(** A [Borders] that has already laid out one window: its arrays are not
    empty when the next call starts. *)
Definition sample_borders_used : Borders :=
  match call env_800x600 sample_borders [window_small] None true with
  | inr self => self
  | inl _ => sample_borders
  end.

(** ** Further vocabulary *)

(** A colour of the configuration: three channels in 0..255. *)
Definition rgb_ok (c : Z * Z * Z) : Prop :=
  let '(c0, c1, c2) := c in
  (0 <= c0 <= 255)%Z /\ (0 <= c1 <= 255)%Z /\ (0 <= c2 <= 255)%Z.

(** The points of a window's geometry enlarged by [bw] pixels on every
    side, the boundary included. *)
Definition within_border (bw : Z) (g : Geometry.t) (px py : Q) : Prop :=
  (inject_Z (Geometry.left g - bw) <= px)%Q
  /\ (px <= inject_Z (Geometry.right g + bw))%Q
  /\ (inject_Z (Geometry.top g - bw) <= py)%Q
  /\ (py <= inject_Z (Geometry.bottom g + bw))%Q.

(** ** Sequences of operations on one object

    The two methods a user of [Borders] calls, in any order. *)
Inductive op : Type :=
  | op_call (env : Env) (windows : list Window)
      (active_window : option Window) (draw_window_borders : bool)
  | op_render.

(** One operation: the object after it and the GPU calls it made.  An
    exception in [__call__] is raised in lines 87-103, before the first
    assignment to an attribute in line 105: it leaves the object as it
    was. *)
Definition step (self : Borders) (o : op) : Borders * list gl_call :=
  match o with
  | op_call env windows active_window draw_window_borders =>
      match call env self windows active_window draw_window_borders with
      | inr self' => (self', [])
      | inl _ => (self, [])
      end
  | op_render => render self
  end.

Fixpoint run (self : Borders) (ops : list op) : Borders * list gl_call :=
  match ops with
  | [] => (self, [])
  | o :: ops' =>
      let '(self1, t1) := step self o in
      let '(self2, t2) := run self1 ops' in
      (self2, t1 ++ t2)
  end.

(** Whether a draw call stays inside a vertex buffer of 3 scalars a
    vertex: as many descriptors as announced, each a range of vertices
    that the buffer holds. *)
Definition draw_fits (buffer : list Qc) (first count : list Z) (n : nat)
  : bool :=
  (length first =? n)%nat && (length count =? n)%nat
  && forallb
       (fun '(f, c) =>
          (0 <=? f)%Z && (0 <=? c)%Z
          && (3 * (f + c) <=? Z.of_nat (length buffer))%Z)
       (combine first count).

(** Replaying a trace of GPU calls against the vertex buffer last sent:
    [None] if a draw call reads outside of it or a uniform upload of
    [count] vectors is given a buffer that does not hold [3 * count]
    scalars, the buffer at the end otherwise. *)
Fixpoint replay (buffer : list Qc) (t : list gl_call) : option (list Qc) :=
  match t with
  | [] => Some buffer
  | send_vertex_data _ data :: t' => replay data t'
  | glUniform3fv _ count buf :: t' =>
      if (Z.of_nat (length buf) =? 3 * count)%Z then replay buffer t'
      else None
  | glMultiDrawArrays _ first count n :: t' =>
      if draw_fits buffer first count n then replay buffer t' else None
  | _ :: t' => replay buffer t'
  end.

(** The invariant of an object and the vertex buffer the GPU holds: the
    palette has 9 scalars, and once the object can render its descriptors
    fit its vertex data, which is what the GPU holds unless the object is
    dirty. *)
Definition gpu_inv (self : Borders) (buffer : list Qc) : Prop :=
  length (color_buf self) = 9%nat
  /\ (can_render self = true ->
      draw_fits (rects self) (starts self) (counts self) (num_of_rects self)
      = true
      /\ (is_dirty self = false -> buffer = rects self)).

(** Whether a GPU call sends the vertex data, and whether an operation is
    a call of the object. *)
Definition is_send (c : gl_call) : bool :=
  match c with
  | send_vertex_data _ _ => true
  | _ => false
  end.

Definition is_call (o : op) : bool :=
  match o with
  | op_call _ _ _ _ => true
  | op_render => false
  end.

(** Reading an attribute after an assignment to an attribute. *)
Ltac attrs :=
  cbn [is_dirty can_render border_width color_buf num_of_rects rects starts
       counts set_is_dirty set_can_render set_num_of_rects set_rects
       set_starts set_counts] in *.

(** * Properties *)

(** ** Numbers and the error monad *)

Lemma of_int_mul (a b : Z) : of_int (a * b) = (of_int a * of_int b)%Qc.
Proof.
  apply Qc_is_canon. unfold of_int. simpl.
  rewrite !Qred_correct, inject_Z_mult. reflexivity.
Qed.

Lemma of_int_nonzero (b : Z) : b <> 0%Z -> of_int b <> Q2Qc 0.
Proof.
  intros Hb Heq. apply Hb.
  apply (f_equal this) in Heq. unfold of_int in Heq. simpl in Heq.
  assert (H : (inject_Z b == 0)%Q)
    by (rewrite <- (Qred_correct (inject_Z b)), Heq; reflexivity).
  unfold Qeq in H. simpl in H. lia.
Qed.

Lemma zero_viewport_false env :
  zero_viewport env = false <->
  viewport_width env <> 0%Z /\ viewport_height env <> 0%Z.
Proof.
  unfold zero_viewport.
  destruct (Z.eqb_spec (viewport_width env) 0),
           (Z.eqb_spec (viewport_height env) 0); simpl; intuition congruence.
Qed.

Lemma zero_viewport_true env :
  zero_viewport env = true <->
  viewport_width env = 0%Z \/ viewport_height env = 0%Z.
Proof.
  unfold zero_viewport.
  destruct (Z.eqb_spec (viewport_width env) 0),
           (Z.eqb_spec (viewport_height env) 0); simpl; intuition congruence.
Qed.

(** ** [to_opengl] and [as_rect] *)

(** [to_opengl] raises exactly when a viewport dimension is zero. *)
Lemma to_opengl_eq env (x y : Z) :
  to_opengl env x y =
    if zero_viewport env then raise ZeroDivisionError
    else ret (clip_x env x, clip_y env y).
Proof.
  unfold to_opengl, int_truediv, zero_viewport, clip_x, clip_y.
  destruct (viewport_width env =? 0)%Z, (viewport_height env =? 0)%Z;
    simpl; try reflexivity.
  rewrite !of_int_mul. reflexivity.
Qed.

Lemma as_rect_eq env (l t r b c : Z) :
  as_rect env l t r b c =
    if zero_viewport env then raise ZeroDivisionError
    else ret (emit env l t r b c).
Proof.
  unfold as_rect, for_each. rewrite !to_opengl_eq.
  destruct (zero_viewport env); reflexivity.
Qed.

Lemma emit_length env (l t r b c : Z) : length (emit env l t r b c) = 12%nat.
Proof. reflexivity. Qed.

Lemma extend_as_rect env rects (l t r b c : Z) :
  extend rects (as_rect env l t r b c) =
    if zero_viewport env then raise ZeroDivisionError
    else ret (rects ++ emit env l t r b c).
Proof.
  unfold extend. rewrite as_rect_eq. destruct (zero_viewport env); reflexivity.
Qed.

(** ** The packing loop, lines 104-116 *)

Lemma array_set_ok {A : Type} (arr : list A) (i : nat) (v : A) :
  (i < length arr)%nat -> array_set arr i v = ret (<[i:=v]> arr).
Proof.
  intros Hi. unfold array_set.
  destruct (Nat.ltb_spec i (length arr)); [reflexivity | lia].
Qed.

Lemma pack_step_inv scalars self0 i x self :
  (length scalars mod 12 = 0)%nat ->
  scalars !! i = Some x ->
  pack_inv scalars self0 i self ->
  exists self', pack_step i x self = ret self'
                /\ pack_inv scalars self0 (S i) self'.
Proof.
  intros Hmod Hx (HR & HS & HC & Hr & Hsc & Hd & Hcr & Hbw & Hcb & Hn).
  pose proof (lookup_lt_Some _ _ _ Hx) as Hi.
  unfold pack_step. rewrite array_set_ok by lia. cbn [bind ret].
  assert (Hr' : forall j, (j < S i)%nat ->
            <[i:=GLfloat_of x]> (rects self) !! j = GLfloat_of <$> scalars !! j).
  { intros j Hj. destruct (decide (i = j)) as [<- | Hne].
    - rewrite list_lookup_insert_eq by lia. rewrite Hx. reflexivity.
    - rewrite list_lookup_insert_ne by assumption. apply Hr. lia. }
  destruct (Nat.eqb_spec (i mod 12) 0) as [Hz | Hnz].
  - assert (Hidx : (i / 12 < length scalars / 12)%nat).
    { pose proof (Nat.div_mod_eq i 12). pose proof (Nat.div_mod_eq (length scalars) 12). lia. }
    unfold GLint_of, GLuint_of.
    attrs. rewrite array_set_ok by lia. cbn [bind ret]. attrs.
    rewrite array_set_ok by lia. cbn [bind ret].
    eexists. split; [reflexivity |].
    unfold pack_inv. attrs.
    rewrite !length_insert.
    split_and!; try assumption.
    intros k Hk. destruct (decide (i / 12 = k)%nat) as [<- | Hne].
    + rewrite !list_lookup_insert_eq by lia. split; [f_equal | reflexivity].
      pose proof (Nat.div_mod_eq i 12). pose proof (Nat.div_mod_eq i 3).
      pose proof (Nat.mod_upper_bound i 3). lia.
    + rewrite !list_lookup_insert_ne by assumption. apply Hsc.
      pose proof (Nat.div_mod_eq i 12). lia.
  - eexists. split; [reflexivity |].
    unfold pack_inv. attrs.
    rewrite !length_insert.
    split_and!; try assumption.
    intros k Hk. apply Hsc.
    pose proof (Nat.div_mod_eq i 12).
    pose proof (Nat.mod_upper_bound i 12). lia.
Qed.

Lemma pack_loop_inv scalars self0 :
  (length scalars mod 12 = 0)%nat ->
  forall xs i self,
    (forall j, xs !! j = scalars !! (i + j)%nat) ->
    pack_inv scalars self0 i self ->
    exists self', for_enumerate i xs pack_step self = ret self'
                  /\ pack_inv scalars self0 (i + length xs) self'.
Proof.
  intros Hmod. induction xs as [| x xs IH]; intros i self Hxs Hinv.
  - exists self. rewrite Nat.add_0_r. split; [reflexivity | assumption].
  - cbn [for_enumerate].
    destruct (pack_step_inv scalars self0 i x self Hmod) as (s1 & -> & Hs1).
    { rewrite <- (Nat.add_0_r i), <- Hxs. reflexivity. }
    { assumption. }
    cbn [bind ret].
    destruct (IH (S i) s1) as (s2 & Hrun & Hs2).
    { intros j. replace (S i + j)%nat with (i + S j)%nat by lia.
      rewrite <- Hxs. reflexivity. }
    { assumption. }
    exists s2. split; [assumption |].
    cbn [length]. replace (i + S (length xs))%nat with (S i + length xs)%nat
      by lia. assumption.
Qed.

Lemma pack_inv_final scalars self0 self :
  (length scalars mod 12 = 0)%nat ->
  pack_inv scalars self0 (length scalars) self ->
  set_can_render true (set_is_dirty true self) = packed self0 scalars.
Proof.
  intros Hmod (HR & HS & HC & Hr & Hsc & Hd & Hcr & Hbw & Hcb & Hn).
  assert (Hrects : rects self = map GLfloat_of scalars).
  { apply list_eq. intros j. rewrite list_lookup_fmap.
    destruct (decide (j < length scalars)%nat) as [Hj | Hj].
    - apply Hr, Hj.
    - rewrite !lookup_ge_None_2 by lia. reflexivity. }
  assert (Hlt : forall k, (k < length scalars / 12)%nat ->
                          (12 * k < length scalars)%nat).
  { intros k Hk. pose proof (Nat.div_mod_eq (length scalars) 12). lia. }
  assert (Hstarts : starts self =
            map (fun k => (4 * Z.of_nat k)%Z) (seq 0 (length scalars / 12))).
  { apply list_eq. intros k. rewrite list_lookup_fmap.
    destruct (decide (k < length scalars / 12)%nat) as [Hk | Hk].
    - rewrite (proj1 (Hsc k (Hlt k Hk))), lookup_seq_lt by assumption.
      reflexivity.
    - rewrite lookup_ge_None_2 by lia.
      rewrite lookup_seq_ge by lia. reflexivity. }
  assert (Hcounts : counts self = replicate (length scalars / 12) 4%Z).
  { apply list_eq. intros k.
    destruct (decide (k < length scalars / 12)%nat) as [Hk | Hk].
    - rewrite (proj2 (Hsc k (Hlt k Hk))). symmetry.
      apply lookup_replicate_2. assumption.
    - rewrite !lookup_ge_None_2; [reflexivity | |]; rewrite ?length_replicate; lia. }
  destruct self. unfold packed. attrs. subst. reflexivity.
Qed.

(** [pack] never raises on a list of whole rectangles, and leaves the
    frame [packed] describes. *)
Lemma pack_eq self scalars :
  (length scalars mod 12 = 0)%nat ->
  pack self scalars = ret (packed self scalars).
Proof.
  intros Hmod. unfold pack.
  set (s0 := set_counts _ _).
  destruct (pack_loop_inv scalars self Hmod scalars 0%nat s0)
    as (s1 & -> & Hs1).
  { reflexivity. }
  { unfold pack_inv, s0. attrs. rewrite !length_replicate.
    split_and!; try reflexivity; intros; lia. }
  cbn [bind ret]. f_equal. apply pack_inv_final; assumption.
Qed.

(** ** The rectangles of [__call__], lines 76-103 *)

Lemma padding_rects_eq env windows :
  padding_rects env windows =
    if zero_viewport env then
      match spec_padding env windows with
      | [] => ret []
      | _ :: _ => raise ZeroDivisionError
      end
    else ret (flat_map (emit_rect env) (spec_padding env windows)).
Proof.
  unfold padding_rects, spec_padding.
  destruct (edges env windows) as [[[le re] te] be].
  destruct (zero_viewport env) eqn:Hz;
    destruct (le >? 0)%Z, (te >? 0)%Z, (re <? viewport_width env)%Z,
             (be <? available_height env)%Z;
    cbn [bind ret raise app];
    repeat (rewrite extend_as_rect, Hz; cbn [bind ret raise]);
    reflexivity.
Qed.

Lemma border_loop_eq env bw active_window windows :
  zero_viewport env = false ->
  forall rects0,
    for_each windows (border_step env bw active_window) rects0
    = ret (rects0
           ++ flat_map (emit_rect env)
                (flat_map (spec_ring bw active_window) windows)).
Proof.
  intros Hz. induction windows as [| w ws IH]; intros rects0.
  - cbn. rewrite app_nil_r. reflexivity.
  - cbn [for_each]. unfold border_step at 1.
    repeat (rewrite extend_as_rect, Hz; cbn [bind ret raise]).
    rewrite IH. f_equal.
    cbn [flat_map]. rewrite flat_map_app, <- !app_assoc. f_equal.
    unfold spec_ring, emit_rect. destruct (is_ w active_window); reflexivity.
Qed.

Lemma border_rects_eq env self windows active_window draw rects0 :
  border_rects env self windows active_window draw rects0 =
    if zero_viewport env then
      match spec_borders (border_width self) windows active_window draw with
      | [] => ret rects0
      | _ :: _ => raise ZeroDivisionError
      end
    else ret (rects0
              ++ flat_map (emit_rect env)
                   (spec_borders (border_width self) windows active_window
                      draw)).
Proof.
  unfold border_rects, spec_borders. rewrite Z.gtb_ltb.
  destruct (draw && (0 <? border_width self)%Z).
  - destruct (zero_viewport env) eqn:Hz.
    + destruct windows as [| w ws]; [reflexivity |].
      cbn [for_each]. unfold border_step.
      rewrite extend_as_rect, Hz. reflexivity.
    + apply border_loop_eq. assumption.
  - rewrite app_nil_r. destruct (zero_viewport env); reflexivity.
Qed.

Lemma flat_map_emit_length env (rs : list Rect) :
  length (flat_map (emit_rect env) rs) = (12 * length rs)%nat.
Proof.
  induction rs as [| r rs IH]; [reflexivity |].
  cbn [flat_map]. rewrite length_app, IH.
  unfold emit_rect. rewrite emit_length. cbn [length]. lia.
Qed.

Lemma flat_map_emit_mod env (rs : list Rect) :
  (length (flat_map (emit_rect env) rs) mod 12 = 0)%nat.
Proof.
  rewrite flat_map_emit_length, Nat.mul_comm. apply Nat.Div0.mod_mul.
Qed.

(** ** [__call__] in closed form

    The call raises [ZeroDivisionError] when a viewport dimension is zero
    and there is a rectangle to emit; otherwise it leaves the packed frame
    of the rectangles of [spec_frame]. *)
Lemma call_eq env self windows active_window draw :
  call env self windows active_window draw =
    let rs := spec_frame env (border_width self) windows active_window draw in
    if zero_viewport env then
      match rs with
      | [] => ret (packed self [])
      | _ :: _ => raise ZeroDivisionError
      end
    else ret (packed self (flat_map (emit_rect env) rs)).
Proof.
  unfold call, spec_frame. rewrite padding_rects_eq.
  destruct (zero_viewport env) eqn:Hz.
  - destruct (spec_padding env windows) as [| r rs]; cbn [bind ret raise app].
    + rewrite border_rects_eq, Hz.
      destruct (spec_borders _ _ _ _); reflexivity.
    + reflexivity.
  - cbn [bind ret]. rewrite border_rects_eq, Hz. cbn [bind ret].
    rewrite <- flat_map_app. apply pack_eq, flat_map_emit_mod.
Qed.

Lemma spec_frame_no_windows env bw active_window draw :
  spec_frame env bw [] active_window draw = [].
Proof.
  unfold spec_frame, spec_padding, spec_borders, edges.
  rewrite !Z.ltb_irrefl. cbn.
  destruct (draw && (0 <? bw)%Z); reflexivity.
Qed.

(** What [__call__] returns is a frame, unless it raised
    [ZeroDivisionError] on a viewport with a zero dimension. *)
Lemma call_cases env self windows active_window draw :
  (call env self windows active_window draw
   = inr (packed self
            (flat_map (emit_rect env)
               (spec_frame env (border_width self) windows active_window
                  draw))))
  \/ (call env self windows active_window draw = inl ZeroDivisionError
      /\ zero_viewport env = true).
Proof.
  rewrite call_eq. cbv zeta.
  destruct (zero_viewport env); [| left; reflexivity].
  destruct (spec_frame _ _ _ _ _); [left | right; split]; reflexivity.
Qed.

Lemma call_nil_eq env self active_window draw :
  call env self [] active_window draw = inr (packed self []).
Proof.
  rewrite call_eq, spec_frame_no_windows. cbv zeta.
  destruct (zero_viewport env); reflexivity.
Qed.

(** ** The claims of the specification *)

(** C1, as the code has it: on the empty window list the bounding box is
    the whole viewport, so for every viewport, every border width and
    every [draw_window_borders] the call emits no rectangle at all: the
    vertex stream and the descriptor arrays are empty and the rectangle
    count is 0. *)
Theorem call_no_windows env self active_window draw :
  exists self',
    call env self [] active_window draw = inr self'
    /\ rects self' = []
    /\ starts self' = []
    /\ counts self' = []
    /\ num_of_rects self' = 0%nat.
Proof.
  exists (packed self []). split; [apply call_nil_eq | repeat split].
Qed.

(** C1 as stated fails: for the viewport 800x600, no windows,
    [draw_window_borders] true and a border of 2 pixels, the vertex stream
    does not hold the 12 scalars of one rectangle. *)
Lemma empty_windows_not_one_rectangle :
  border_width sample_borders = 2%Z
  /\ ~ (exists self',
          call env_800x600 sample_borders [] None true = inr self'
          /\ length (rects self') = 12%nat).
Proof.
  split; [vm_compute; reflexivity |].
  intros (self' & Hcall & Hlen).
  rewrite call_nil_eq in Hcall. injection Hcall as <-.
  discriminate Hlen.
Qed.

(** C2: for a viewport of positive width and height, [to_opengl(x, y)]
    raises nothing and returns (-1 + 2x/width, 1 - 2y/height); it maps
    (0, 0) to (-1, 1) and (width, height) to (1, -1). *)
Theorem to_opengl_clip_space env (x y : Z) :
  (0 < viewport_width env)%Z -> (0 < viewport_height env)%Z ->
  to_opengl env x y =
    inr ((of_int (-1) + of_int 2 * of_int x / of_int (viewport_width env))%Qc,
         (of_int 1 - of_int 2 * of_int y / of_int (viewport_height env))%Qc)
  /\ to_opengl env 0 0 = inr (of_int (-1), of_int 1)
  /\ to_opengl env (viewport_width env) (viewport_height env)
     = inr (of_int 1, of_int (-1)).
Proof.
  intros Hw Hh.
  assert (Hz : zero_viewport env = false) by (apply zero_viewport_false; lia).
  assert (Nw : of_int (viewport_width env) <> Q2Qc 0)
    by (apply of_int_nonzero; lia).
  assert (Nh : of_int (viewport_height env) <> Q2Qc 0)
    by (apply of_int_nonzero; lia).
  rewrite !to_opengl_eq, Hz. unfold ret, clip_x, clip_y.
  split_and!; [reflexivity | |]; f_equal; f_equal.
  all: change (of_int 0) with (Q2Qc 0); change (of_int 1) with (Q2Qc 1);
       change (of_int (-1)) with (- Q2Qc 1)%Qc;
       change (of_int 2) with (Q2Qc 1 + Q2Qc 1)%Qc.
  all: field; assumption.
Qed.

(** C2 at the 800x600 viewport. *)
Lemma to_opengl_clip_space_witness :
  (0 < viewport_width env_800x600)%Z
  /\ (0 < viewport_height env_800x600)%Z
  /\ to_opengl env_800x600 0 0 = inr (of_int (-1), of_int 1)
  /\ to_opengl env_800x600 800 600 = inr (of_int 1, of_int (-1)).
Proof.
  split; [reflexivity |]. split; [reflexivity |].
  apply (to_opengl_clip_space env_800x600 0 0); reflexivity.
Defined.

(** C3: on a viewport of positive size, [as_rect(left, top, right, bottom,
    color)] raises nothing and yields exactly 12 scalars, 4 vertices: the
    corners (right, top), (right, bottom), (left, bottom), (left, top) in
    this order, each one the result of [to_opengl] followed by the colour. *)
Theorem as_rect_four_vertices env (l t r b c : Z) :
  (0 < viewport_width env)%Z -> (0 < viewport_height env)%Z ->
  exists p1 p2 p3 p4 : Qc * Qc,
    to_opengl env r t = inr p1
    /\ to_opengl env r b = inr p2
    /\ to_opengl env l b = inr p3
    /\ to_opengl env l t = inr p4
    /\ as_rect env l t r b c =
         inr [PyFloat (fst p1); PyFloat (snd p1); PyInt c;
              PyFloat (fst p2); PyFloat (snd p2); PyInt c;
              PyFloat (fst p3); PyFloat (snd p3); PyInt c;
              PyFloat (fst p4); PyFloat (snd p4); PyInt c].
Proof.
  intros Hw Hh.
  assert (Hz : zero_viewport env = false) by (apply zero_viewport_false; lia).
  rewrite as_rect_eq, !to_opengl_eq, Hz.
  eexists _, _, _, _. split_and!; reflexivity.
Qed.

(** C3 at the 800x600 viewport, for the rectangle (10, 20) -> (400, 300)
    in colour 2. *)
Lemma as_rect_four_vertices_witness :
  (0 < viewport_width env_800x600)%Z
  /\ (0 < viewport_height env_800x600)%Z
  /\ exists p1 p2 p3 p4 : Qc * Qc,
       to_opengl env_800x600 400 20 = inr p1
       /\ to_opengl env_800x600 400 300 = inr p2
       /\ to_opengl env_800x600 10 300 = inr p3
       /\ to_opengl env_800x600 10 20 = inr p4
       /\ as_rect env_800x600 10 20 400 300 2 =
            inr [PyFloat (fst p1); PyFloat (snd p1); PyInt 2;
                 PyFloat (fst p2); PyFloat (snd p2); PyInt 2;
                 PyFloat (fst p3); PyFloat (snd p3); PyInt 2;
                 PyFloat (fst p4); PyFloat (snd p4); PyInt 2].
Proof.
  split; [reflexivity |]. split; [reflexivity |].
  apply (as_rect_four_vertices env_800x600 10 20 400 300 2); reflexivity.
Defined.

(** C4: every frame [__call__] produces holds a multiple of 12 scalars,
    as many descriptors as a twelfth of the scalar count, which is
    [num_of_rects], and a vertex count of 4 in every descriptor.  The call
    produces a frame for every input, except that it raises
    [ZeroDivisionError] on a viewport with a zero dimension. *)
Theorem call_frame_invariant env self windows active_window draw :
  match call env self windows active_window draw with
  | inr self' =>
      (length (rects self') mod 12 = 0)%nat
      /\ num_of_rects self' = (length (rects self') / 12)%nat
      /\ length (starts self') = num_of_rects self'
      /\ length (counts self') = num_of_rects self'
      /\ (forall k c, counts self' !! k = Some c -> c = 4%Z)
  | inl e =>
      e = ZeroDivisionError
      /\ (viewport_width env = 0%Z \/ viewport_height env = 0%Z)
  end.
Proof.
  destruct (call_cases env self windows active_window draw)
    as [-> | [-> Hz]]; [| split; [reflexivity | apply zero_viewport_true, Hz]].
  unfold packed. attrs.
  rewrite length_map, length_map, length_seq, length_replicate.
  split_and!; try reflexivity.
  - apply flat_map_emit_mod.
  - intros k c Hk. apply lookup_replicate in Hk. apply Hk.
Qed.

(** C5: the loop of lines 95-103 appends border rectangles if and only if
    [draw_window_borders] is true and the border width is positive; it then
    appends, for every window in order, the left, top, right and bottom
    strips of [spec_ring], in colour 1 for the active window and 2 for the
    others; no point of a strip is inside the window's own geometry. *)
Theorem border_rects_rings env self windows active_window draw rects0 :
  (0 < viewport_width env)%Z -> (0 < viewport_height env)%Z ->
  border_rects env self windows active_window draw rects0 =
    inr (rects0
         ++ flat_map (emit_rect env)
              (if draw && (0 <? border_width self)%Z
               then flat_map (spec_ring (border_width self) active_window)
                      windows
               else []))
  /\ (forall w, length (spec_ring (border_width self) active_window w) = 4%nat)
  /\ (forall w r, In r (spec_ring (border_width self) active_window w) ->
        color_index (r_color r) = if is_ w active_window then 1%Z else 2%Z)
  /\ (forall w r px py,
        In r (spec_ring (border_width self) active_window w) ->
        covers r px py -> ~ inside (geometry w) px py).
Proof.
  intros Hw Hh.
  assert (Hz : zero_viewport env = false) by (apply zero_viewport_false; lia).
  split_and!.
  - rewrite border_rects_eq, Hz. reflexivity.
  - reflexivity.
  - intros w r Hin. unfold spec_ring in Hin. cbn [In] in Hin.
    destruct Hin as [<- | [<- | [<- | [<- | []]]]];
      cbn [r_color]; destruct (is_ w active_window); reflexivity.
  - intros w r px py Hin (Hl & Hr & Ht & Hb) (Il & Ir & It & Ib).
    unfold spec_ring in Hin. cbn [In] in Hin.
    destruct Hin as [<- | [<- | [<- | [<- | []]]]];
      cbn [r_left r_right r_top r_bottom] in *; lra.
Qed.

(** C5 at the 800x600 viewport, for two windows of which the second is
    active, with a border of 2 pixels. *)
Lemma border_rects_rings_witness :
  (0 < viewport_width env_800x600)%Z
  /\ (0 < viewport_height env_800x600)%Z
  /\ border_rects env_800x600 sample_borders [window_small; window_full]
       (Some window_full) true []
     = inr (flat_map (emit_rect env_800x600)
              (spec_ring 2 (Some window_full) window_small
               ++ spec_ring 2 (Some window_full) window_full)).
Proof.
  split; [reflexivity |]. split; [reflexivity |].
  pose proof (border_rects_rings env_800x600 sample_borders
                [window_small; window_full] (Some window_full) true []
                ltac:(reflexivity) ltac:(reflexivity)) as [H _].
  rewrite H. vm_compute. reflexivity.
Defined.


(** C7: [render] does nothing while [can_render] is false.  Otherwise it
    uploads the vertex data and the 3 colours exactly when [is_dirty] is
    true, clearing [is_dirty], and then draws with [starts], [counts] and
    [num_of_rects] in either case; a second [render] only draws. *)
Theorem render_behaviour self :
  (render self =
    match can_render self, is_dirty self with
    | false, _ => (self, [])
    | true, true =>
        (set_is_dirty false self,
         [program_enter;
          send_vertex_data "rect" (rects self);
          glUniform3fv "colors" 3 (color_buf self);
          glMultiDrawArrays GL_TRIANGLE_FAN (starts self) (counts self)
            (num_of_rects self);
          program_exit])
    | true, false =>
        (self,
         [program_enter;
          glMultiDrawArrays GL_TRIANGLE_FAN (starts self) (counts self)
            (num_of_rects self);
          program_exit])
    end)
  /\ snd (render (fst (render self))) =
       if can_render self
       then [program_enter;
             glMultiDrawArrays GL_TRIANGLE_FAN (starts self) (counts self)
               (num_of_rects self);
             program_exit]
       else [].
Proof.
  unfold render. destruct self as [d c bw cb n r s k].
  destruct c, d; split; reflexivity.
Qed.

(** C8: the frame [__call__] produces is a function of its inputs alone:
    two calls with the same viewport, windows, active window, flag and
    border width produce the same frame (or raise the same exception),
    whatever the object held before. *)
Theorem call_deterministic env self1 self2 windows active_window draw :
  border_width self1 = border_width self2 ->
  match call env self1 windows active_window draw,
        call env self2 windows active_window draw with
  | inr s1, inr s2 => frame s1 = frame s2
  | inl e1, inl e2 => e1 = e2
  | _, _ => False
  end.
Proof.
  intros Hbw. rewrite !call_eq, Hbw. cbv zeta.
  destruct (zero_viewport env); [| reflexivity].
  destruct (spec_frame _ _ _ _ _); reflexivity.
Qed.

(** C8 for a fresh object and one that holds an earlier frame. *)
Lemma call_deterministic_witness :
  border_width sample_borders = border_width sample_borders_used
  /\ rects sample_borders <> rects sample_borders_used
  /\ match call env_800x600 sample_borders [window_small; window_full]
             (Some window_full) true,
           call env_800x600 sample_borders_used [window_small; window_full]
             (Some window_full) true with
     | inr s1, inr s2 => frame s1 = frame s2
     | inl e1, inl e2 => e1 = e2
     | _, _ => False
     end.
Proof.
  split; [vm_compute; reflexivity |].
  split; [vm_compute; discriminate |].
  apply (call_deterministic env_800x600 sample_borders sample_borders_used).
  vm_compute. reflexivity.
Defined.

(** C10: in every frame [__call__] produces, descriptor [k] starts at
    vertex [4 * k] and counts 4 vertices, for every [k] below
    [num_of_rects]; the blocks follow one another and the last one ends
    where the vertex stream ends, at 3 scalars a vertex.  The call produces
    a frame for every input, except that it raises [ZeroDivisionError] on a
    viewport with a zero dimension. *)
Theorem call_starts_consecutive env self windows active_window draw :
  match call env self windows active_window draw with
  | inr self' =>
      (forall k, (k < num_of_rects self')%nat ->
         starts self' !! k = Some (4 * Z.of_nat k)%Z
         /\ counts self' !! k = Some 4%Z)
      /\ length (starts self') = num_of_rects self'
      /\ length (rects self') = (3 * (4 * num_of_rects self'))%nat
  | inl e =>
      e = ZeroDivisionError
      /\ (viewport_width env = 0%Z \/ viewport_height env = 0%Z)
  end.
Proof.
  destruct (call_cases env self windows active_window draw)
    as [-> | [-> Hz]]; [| split; [reflexivity | apply zero_viewport_true, Hz]].
  unfold packed. attrs.
  rewrite length_map, length_map, length_seq, flat_map_emit_length.
  rewrite (Nat.mul_comm 12), Nat.div_mul by lia.
  split_and!; [| reflexivity | lia].
  intros k Hk. split.
  - rewrite list_lookup_fmap, lookup_seq_lt by assumption. reflexivity.
  - apply lookup_replicate_2. assumption.
Qed.

(** The specification's third test: one active window that fills the
    800x600 viewport gets no padding and the four strips of its ring, in
    colour 1. *)
Example call_window_full :
  exists self',
    call env_800x600 sample_borders [window_full] (Some window_full) true
    = inr self'
    /\ spec_padding env_800x600 [window_full] = []
    /\ num_of_rects self' = 4%nat
    /\ rects self' =
         map GLfloat_of
           (flat_map (emit_rect env_800x600)
              (spec_ring 2 (Some window_full) window_full))
    /\ Forall (fun r => r_color r = ActiveBorder)
         (spec_ring 2 (Some window_full) window_full).
Proof.
  eexists. split_and!; [vm_compute; reflexivity | reflexivity ..
                        | repeat constructor].
Qed.

(** A fresh object renders nothing; after a call the first [render]
    uploads the frame and draws it. *)
Example render_after_call :
  render sample_borders = (sample_borders, [])
  /\ forall self',
       call env_800x600 sample_borders [window_full] (Some window_full) true
       = inr self' ->
       snd (render self') =
         [program_enter;
          send_vertex_data "rect" (rects self');
          glUniform3fv "colors" 3 (color_buf sample_borders);
          glMultiDrawArrays GL_TRIANGLE_FAN [0; 4; 8; 12]%Z [4; 4; 4; 4]%Z 4;
          program_exit].
Proof.
  split; [reflexivity |].
  intros self' H. vm_compute in H. injection H as <-. reflexivity.
Qed.

(** * Further properties of the code *)

(** ** Clip-space coordinates as fractions *)

Lemma of_int_Q (z : Z) : (this (of_int z) == inject_Z z)%Q.
Proof. unfold of_int. simpl. apply Qred_correct. Qed.

Lemma clip_x_Q env (x : Z) :
  (this (clip_x env x)
   == -1 + 2 * inject_Z x / inject_Z (viewport_width env))%Q.
Proof.
  unfold clip_x, of_int, Qcdiv, Qcinv, Qcmult, Qcplus, Q2Qc. cbn [this].
  rewrite !Qred_correct. reflexivity.
Qed.

Lemma clip_y_Q env (y : Z) :
  (this (clip_y env y)
   == 1 - 2 * inject_Z y / inject_Z (viewport_height env))%Q.
Proof.
  unfold clip_y, of_int, Qcdiv, Qcinv, Qcmult, Qcminus, Qcplus, Qcopp, Q2Qc.
  cbn [this]. rewrite !Qred_correct. reflexivity.
Qed.

(** [2 * a / d] for a positive [d], as a fraction. *)
Lemma twice_over_pos (a : Z) (d : positive) :
  (2 * inject_Z a / inject_Z (Z.pos d) == (2 * a) # d)%Q.
Proof. unfold Qeq, Qdiv, Qmult, Qinv, inject_Z. simpl. lia. Qed.

(** X1: on a viewport of positive size, a pixel of the viewport, its edges
    included, is mapped into the clip-space square [-1, 1] x [-1, 1]. *)
Theorem to_opengl_inside_clip_square env (x y : Z) :
  (0 < viewport_width env)%Z -> (0 < viewport_height env)%Z ->
  (0 <= x <= viewport_width env)%Z -> (0 <= y <= viewport_height env)%Z ->
  exists cx cy : Qc,
    to_opengl env x y = inr (cx, cy)
    /\ (of_int (-1) <= cx)%Qc /\ (cx <= of_int 1)%Qc
    /\ (of_int (-1) <= cy)%Qc /\ (cy <= of_int 1)%Qc.
Proof.
  intros Hw Hh Hx Hy.
  assert (Hz : zero_viewport env = false) by (apply zero_viewport_false; lia).
  rewrite to_opengl_eq, Hz. eexists _, _. split; [reflexivity |].
  unfold Qcle. rewrite clip_x_Q, clip_y_Q, !of_int_Q.
  destruct (viewport_width env) as [| w | w]; try lia.
  destruct (viewport_height env) as [| h | h]; try lia.
  rewrite !twice_over_pos.
  unfold Qle, Qplus, Qminus, Qopp, inject_Z. simpl. split_and!; lia.
Qed.

Lemma to_opengl_inside_clip_square_witness :
  (0 < viewport_width env_800x600)%Z
  /\ (0 < viewport_height env_800x600)%Z
  /\ (0 <= 200 <= viewport_width env_800x600)%Z
  /\ (0 <= 600 <= viewport_height env_800x600)%Z
  /\ exists cx cy : Qc,
       to_opengl env_800x600 200 600 = inr (cx, cy)
       /\ (of_int (-1) <= cx)%Qc /\ (cx <= of_int 1)%Qc
       /\ (of_int (-1) <= cy)%Qc /\ (cy <= of_int 1)%Qc.
Proof.
  split; [reflexivity |]. split; [reflexivity |].
  split; [cbn; lia |]. split; [cbn; lia |].
  apply (to_opengl_inside_clip_square env_800x600 200 600); cbn; lia.
Defined.

(** X2: on a viewport of positive size the mapping keeps the order of x and
    reverses the order of y (the origin is top-left in pixels, bottom-left
    in clip space); in particular distinct pixels get distinct coordinates. *)
Theorem to_opengl_monotone env (x1 y1 x2 y2 : Z) :
  (0 < viewport_width env)%Z -> (0 < viewport_height env)%Z ->
  exists c1 c2 : Qc * Qc,
    to_opengl env x1 y1 = inr c1
    /\ to_opengl env x2 y2 = inr c2
    /\ ((x1 < x2)%Z <-> (fst c1 < fst c2)%Qc)
    /\ ((y1 < y2)%Z <-> (snd c2 < snd c1)%Qc).
Proof.
  intros Hw Hh.
  assert (Hz : zero_viewport env = false) by (apply zero_viewport_false; lia).
  rewrite !to_opengl_eq, Hz. eexists _, _.
  split; [reflexivity |]. split; [reflexivity |].
  cbn [fst snd]. unfold Qclt. rewrite !clip_x_Q, !clip_y_Q.
  destruct (viewport_width env) as [| w | w]; try lia.
  destruct (viewport_height env) as [| h | h]; try lia.
  rewrite !twice_over_pos.
  unfold Qlt, Qplus, Qminus, Qopp, inject_Z. simpl. split; nia.
Qed.

Lemma to_opengl_monotone_witness :
  (0 < viewport_width env_800x600)%Z
  /\ (0 < viewport_height env_800x600)%Z
  /\ exists c1 c2 : Qc * Qc,
       to_opengl env_800x600 10 20 = inr c1
       /\ to_opengl env_800x600 400 300 = inr c2
       /\ ((10 < 400)%Z <-> (fst c1 < fst c2)%Qc)
       /\ ((20 < 300)%Z <-> (snd c2 < snd c1)%Qc).
Proof.
  split; [reflexivity |]. split; [reflexivity |].
  apply (to_opengl_monotone env_800x600 10 20 400 300); reflexivity.
Defined.

(** ** The configuration, lines 15-16 and 62-73 *)

Lemma as_color_channel_range (c : Z) :
  (0 <= c <= 255)%Z ->
  (of_int 0 <= of_int c / of_int 255)%Qc
  /\ (of_int c / of_int 255 <= of_int 1)%Qc.
Proof.
  intros Hc. unfold Qcle, Qcdiv, Qcinv, Qcmult, of_int, Q2Qc. cbn [this].
  rewrite !Qred_correct.
  unfold Qle, Qmult, Qinv, inject_Z. simpl. lia.
Qed.

(** X3: [as_color] turns a colour with channels in 0..255 into three
    fractions between 0 and 1: for three such colours [__init__] fills
    [color_buf] with 9 fractions between 0 and 1, as many as
    [GLfloat * 9] holds. *)
Theorem init_color_buf dpi_logical opts :
  rgb_ok (background opts) ->
  rgb_ok (active_border_color opts) ->
  rgb_ok (inactive_border_color opts) ->
  length (color_buf (init dpi_logical opts)) = 9%nat
  /\ Forall (fun q => (of_int 0 <= q)%Qc /\ (q <= of_int 1)%Qc)
       (color_buf (init dpi_logical opts)).
Proof.
  unfold init, rgb_ok. destruct dpi_logical as [dpix dpiy].
  cbn [color_buf].
  destruct (background opts) as [[b0 b1] b2].
  destruct (active_border_color opts) as [[a0 a1] a2].
  destruct (inactive_border_color opts) as [[i0 i1] i2].
  intros (? & ? & ?) (? & ? & ?) (? & ? & ?).
  split; [reflexivity |].
  unfold as_color. cbn [app].
  repeat (apply Forall_cons; split;
          [apply as_color_channel_range; assumption |]).
  apply Forall_nil. exact I.
Qed.

Lemma init_color_buf_witness :
  rgb_ok (background sample_opts)
  /\ rgb_ok (active_border_color sample_opts)
  /\ rgb_ok (inactive_border_color sample_opts)
  /\ length (color_buf sample_borders) = 9%nat
  /\ Forall (fun q => (of_int 0 <= q)%Qc /\ (q <= of_int 1)%Qc)
       (color_buf sample_borders).
Proof.
  assert (H1 : rgb_ok (background sample_opts)) by (cbn; lia).
  assert (H2 : rgb_ok (active_border_color sample_opts)) by (cbn; lia).
  assert (H3 : rgb_ok (inactive_border_color sample_opts)) by (cbn; lia).
  split; [exact H1 |]. split; [exact H2 |]. split; [exact H3 |].
  apply (init_color_buf (of_int 72, of_int 72) sample_opts H1 H2 H3).
Defined.



(** ** The bounding box and the padding, lines 76-94 *)

Lemma py_min_le (x : Z) (xs : list Z) :
  (py_min x xs <= x)%Z /\ (forall y, In y xs -> (py_min x xs <= y)%Z).
Proof.
  unfold py_min. revert x. induction xs as [| z zs IH]; intros x; cbn.
  - split; [lia | intros y []].
  - destruct (IH (Z.min x z)) as [H1 H2]. split; [lia |].
    intros y [<- | Hy]; [lia | apply H2, Hy].
Qed.

Lemma py_min_in (x : Z) (xs : list Z) : In (py_min x xs) (x :: xs).
Proof.
  unfold py_min. revert x. induction xs as [| z zs IH]; intros x; cbn.
  - left. reflexivity.
  - destruct (IH (Z.min x z)) as [H | H].
    + destruct (Z.min_spec x z) as [[_ E] | [_ E]];
        [left | right; left]; rewrite <- H; symmetry; exact E.
    + right. right. exact H.
Qed.

Lemma py_max_ge (x : Z) (xs : list Z) :
  (x <= py_max x xs)%Z /\ (forall y, In y xs -> (y <= py_max x xs)%Z).
Proof.
  unfold py_max. revert x. induction xs as [| z zs IH]; intros x; cbn.
  - split; [lia | intros y []].
  - destruct (IH (Z.max x z)) as [H1 H2]. split; [lia |].
    intros y [<- | Hy]; [lia | apply H2, Hy].
Qed.

Lemma py_max_in (x : Z) (xs : list Z) : In (py_max x xs) (x :: xs).
Proof.
  unfold py_max. revert x. induction xs as [| z zs IH]; intros x; cbn.
  - left. reflexivity.
  - destruct (IH (Z.max x z)) as [H | H].
    + destruct (Z.max_spec x z) as [[_ E] | [_ E]];
        [right; left | left]; rewrite <- H; symmetry; exact E.
    + right. right. exact H.
Qed.

Lemma edges_bound env windows w :
  In w windows ->
  (fst (fst (fst (edges env windows))) <= Geometry.left (geometry w))%Z
  /\ (Geometry.right (geometry w) <= snd (fst (fst (edges env windows))))%Z
  /\ (snd (fst (edges env windows)) <= Geometry.top (geometry w))%Z
  /\ (Geometry.bottom (geometry w) <= snd (edges env windows))%Z.
Proof.
  intros Hin. destruct windows as [| w0 ws]; [destruct Hin |].
  cbn [edges fst snd].
  destruct Hin as [<- | Hin].
  - split_and!;
      first [apply (proj1 (py_min_le _ _)) | apply (proj1 (py_max_ge _ _))].
  - split_and!;
      first [apply (proj2 (py_min_le _ _)) | apply (proj2 (py_max_ge _ _))];
      apply (in_map (fun w => _ (geometry w))), Hin.
Qed.

(** X5: for a non-empty window list the edges of lines 78-81 are a bounding
    box of the windows: no window reaches beyond an edge, and each edge is
    the edge of a window of the list. *)
Theorem edges_bounding_box env windows w :
  In w windows ->
  let '(left_edge, right_edge, top_edge, bottom_edge) := edges env windows in
  ((left_edge <= Geometry.left (geometry w))%Z
   /\ (Geometry.right (geometry w) <= right_edge)%Z
   /\ (top_edge <= Geometry.top (geometry w))%Z
   /\ (Geometry.bottom (geometry w) <= bottom_edge)%Z)
  /\ (exists w1, In w1 windows /\ Geometry.left (geometry w1) = left_edge)
  /\ (exists w2, In w2 windows /\ Geometry.right (geometry w2) = right_edge)
  /\ (exists w3, In w3 windows /\ Geometry.top (geometry w3) = top_edge)
  /\ (exists w4, In w4 windows /\ Geometry.bottom (geometry w4) = bottom_edge).
Proof.
  intros Hin. pose proof (edges_bound env windows w Hin) as Hb.
  destruct windows as [| w0 ws]; [destruct Hin |].
  cbn [edges fst snd] in *. split; [exact Hb |].
  split_and!.
  - pose proof (py_min_in (Geometry.left (geometry w0))
                  (map (fun w => Geometry.left (geometry w)) ws)) as H.
    change (In (py_min (Geometry.left (geometry w0))
                  (map (fun w => Geometry.left (geometry w)) ws))
              (map (fun w => Geometry.left (geometry w)) (w0 :: ws))) in H.
    apply in_map_iff in H as (w1 & E & H1). eauto.
  - pose proof (py_max_in (Geometry.right (geometry w0))
                  (map (fun w => Geometry.right (geometry w)) ws)) as H.
    change (In (py_max (Geometry.right (geometry w0))
                  (map (fun w => Geometry.right (geometry w)) ws))
              (map (fun w => Geometry.right (geometry w)) (w0 :: ws))) in H.
    apply in_map_iff in H as (w1 & E & H1). eauto.
  - pose proof (py_min_in (Geometry.top (geometry w0))
                  (map (fun w => Geometry.top (geometry w)) ws)) as H.
    change (In (py_min (Geometry.top (geometry w0))
                  (map (fun w => Geometry.top (geometry w)) ws))
              (map (fun w => Geometry.top (geometry w)) (w0 :: ws))) in H.
    apply in_map_iff in H as (w1 & E & H1). eauto.
  - pose proof (py_max_in (Geometry.bottom (geometry w0))
                  (map (fun w => Geometry.bottom (geometry w)) ws)) as H.
    change (In (py_max (Geometry.bottom (geometry w0))
                  (map (fun w => Geometry.bottom (geometry w)) ws))
              (map (fun w => Geometry.bottom (geometry w)) (w0 :: ws))) in H.
    apply in_map_iff in H as (w1 & E & H1). eauto.
Qed.

Lemma edges_bounding_box_witness :
  In window_small [window_small; window_full]
  /\ let '(left_edge, right_edge, top_edge, bottom_edge) :=
       edges env_800x600 [window_small; window_full] in
     ((left_edge <= Geometry.left (geometry window_small))%Z
      /\ (Geometry.right (geometry window_small) <= right_edge)%Z
      /\ (top_edge <= Geometry.top (geometry window_small))%Z
      /\ (Geometry.bottom (geometry window_small) <= bottom_edge)%Z)
     /\ (exists w1, In w1 [window_small; window_full]
                    /\ Geometry.left (geometry w1) = left_edge)
     /\ (exists w2, In w2 [window_small; window_full]
                    /\ Geometry.right (geometry w2) = right_edge)
     /\ (exists w3, In w3 [window_small; window_full]
                    /\ Geometry.top (geometry w3) = top_edge)
     /\ (exists w4, In w4 [window_small; window_full]
                    /\ Geometry.bottom (geometry w4) = bottom_edge).
Proof.
  split; [left; reflexivity |].
  apply (edges_bounding_box env_800x600 [window_small; window_full]
           window_small).
  left. reflexivity.
Defined.

(** X6: the padding rectangles are what lines 86-94 emit, and none of them
    covers a point inside the geometry of a window of the list: the
    background padding never paints over a window's content. *)
Theorem padding_outside_windows env windows w :
  (0 < viewport_width env)%Z -> (0 < viewport_height env)%Z ->
  In w windows ->
  padding_rects env windows
  = inr (flat_map (emit_rect env) (spec_padding env windows))
  /\ (forall r px py,
        In r (spec_padding env windows) -> covers r px py ->
        ~ inside (geometry w) px py).
Proof.
  intros Hw Hh Hin.
  assert (Hz : zero_viewport env = false) by (apply zero_viewport_false; lia).
  split; [rewrite padding_rects_eq, Hz; reflexivity |].
  pose proof (edges_bound env windows w Hin) as (B1 & B2 & B3 & B4).
  unfold spec_padding.
  destruct (edges env windows) as [[[le re] te] be]. cbn [fst snd] in *.
  rewrite Zle_Qle in B1, B2, B3, B4.
  intros r px py Hr (C1 & C2 & C3 & C4) (I1 & I2 & I3 & I4).
  repeat (apply in_app_or in Hr; destruct Hr as [Hr | Hr]).
  - destruct (le >? 0)%Z; cbn [In] in Hr;
      [destruct Hr as [<- | []] | destruct Hr].
    cbn [r_left r_right r_top r_bottom] in *. lra.
  - destruct (te >? 0)%Z; cbn [In] in Hr;
      [destruct Hr as [<- | []] | destruct Hr].
    cbn [r_left r_right r_top r_bottom] in *. lra.
  - destruct (re <? viewport_width env)%Z; cbn [In] in Hr;
      [destruct Hr as [<- | []] | destruct Hr].
    cbn [r_left r_right r_top r_bottom] in *. lra.
  - destruct (be <? available_height env)%Z; cbn [In] in Hr;
      [destruct Hr as [<- | []] | destruct Hr].
    cbn [r_left r_right r_top r_bottom] in *. lra.
Qed.

Lemma padding_outside_windows_witness :
  (0 < viewport_width env_800x600)%Z
  /\ (0 < viewport_height env_800x600)%Z
  /\ In window_small [window_small]
  /\ length (spec_padding env_800x600 [window_small]) = 4%nat
  /\ (forall r px py,
        In r (spec_padding env_800x600 [window_small]) -> covers r px py ->
        ~ inside (geometry window_small) px py).
Proof.
  split; [reflexivity |]. split; [reflexivity |].
  split; [left; reflexivity |]. split; [reflexivity |].
  apply (padding_outside_windows env_800x600 [window_small] window_small);
    [reflexivity | reflexivity | left; reflexivity].
Defined.

(** ** The border of one window, lines 98-103 *)

Lemma border_step_eq env bw active_window w rects0 :
  zero_viewport env = false ->
  border_step env bw active_window w rects0
  = inr (rects0 ++ flat_map (emit_rect env) (spec_ring bw active_window w)).
Proof.
  intros Hz. unfold border_step.
  repeat (rewrite extend_as_rect, Hz; cbn [bind ret raise]).
  unfold ret. f_equal. rewrite <- !app_assoc. f_equal.
  unfold spec_ring, emit_rect. destruct (is_ w active_window); reflexivity.
Qed.

(** X7: for a window whose geometry is not inverted and a border width that
    is not negative, the four strips that one turn of the loop emits cover
    exactly the frame around the window: a point is on a strip if and only
    if it is within [bw] pixels of the geometry and not inside it. *)
Theorem border_step_covers_frame env bw active_window w rects0 :
  (0 < viewport_width env)%Z -> (0 < viewport_height env)%Z ->
  (Geometry.left (geometry w) <= Geometry.right (geometry w))%Z ->
  (Geometry.top (geometry w) <= Geometry.bottom (geometry w))%Z ->
  (0 <= bw)%Z ->
  border_step env bw active_window w rects0
  = inr (rects0 ++ flat_map (emit_rect env) (spec_ring bw active_window w))
  /\ (forall px py,
        (exists r, In r (spec_ring bw active_window w) /\ covers r px py)
        <-> within_border bw (geometry w) px py
            /\ ~ inside (geometry w) px py).
Proof.
  intros Hw Hh Hlr Htb Hbw.
  assert (Hz : zero_viewport env = false) by (apply zero_viewport_false; lia).
  split; [apply border_step_eq, Hz |].
  set (g := geometry w).
  assert (E1 : (inject_Z (Geometry.left g) <= inject_Z (Geometry.right g + bw))%Q)
    by (rewrite <- Zle_Qle; unfold g; lia).
  assert (E2 : (inject_Z (Geometry.top g) <= inject_Z (Geometry.bottom g + bw))%Q)
    by (rewrite <- Zle_Qle; unfold g; lia).
  assert (E3 : (inject_Z (Geometry.left g - bw) <= inject_Z (Geometry.right g))%Q)
    by (rewrite <- Zle_Qle; unfold g; lia).
  assert (E4 : (inject_Z (Geometry.top g - bw) <= inject_Z (Geometry.bottom g))%Q)
    by (rewrite <- Zle_Qle; unfold g; lia).
  intros px py. unfold spec_ring, within_border, inside, covers. fold g.
  split.
  - intros (r & Hin & C1 & C2 & C3 & C4). cbn [In] in Hin.
    destruct Hin as [<- | [<- | [<- | [<- | []]]]];
      cbn [r_left r_right r_top r_bottom] in *;
      (split; [split_and!; lra | intros (I1 & I2 & I3 & I4); lra]).
  - intros ((B1 & B2 & B3 & B4) & Hout).
    destruct (Qlt_le_dec (inject_Z (Geometry.left g)) px) as [L | L].
    2: { eexists. split; [left; reflexivity |].
         cbn [r_left r_right r_top r_bottom]. split_and!; lra. }
    destruct (Qlt_le_dec (inject_Z (Geometry.top g)) py) as [T | T].
    2: { eexists. split; [right; left; reflexivity |].
         cbn [r_left r_right r_top r_bottom]. split_and!; lra. }
    destruct (Qlt_le_dec px (inject_Z (Geometry.right g))) as [R | R].
    2: { eexists. split; [right; right; left; reflexivity |].
         cbn [r_left r_right r_top r_bottom]. split_and!; lra. }
    destruct (Qlt_le_dec py (inject_Z (Geometry.bottom g))) as [B | B].
    2: { eexists. split; [right; right; right; left; reflexivity |].
         cbn [r_left r_right r_top r_bottom]. split_and!; lra. }
    exfalso. apply Hout. split_and!; assumption.
Qed.

Lemma border_step_covers_frame_witness :
  (0 < viewport_width env_800x600)%Z
  /\ (0 < viewport_height env_800x600)%Z
  /\ (Geometry.left (geometry window_small)
      <= Geometry.right (geometry window_small))%Z
  /\ (Geometry.top (geometry window_small)
      <= Geometry.bottom (geometry window_small))%Z
  /\ (0 <= 2)%Z
  /\ (forall px py,
        (exists r, In r (spec_ring 2 None window_small) /\ covers r px py)
        <-> within_border 2 (geometry window_small) px py
            /\ ~ inside (geometry window_small) px py).
Proof.
  split; [reflexivity |]. split; [reflexivity |].
  split; [discriminate |]. split; [discriminate |]. split; [discriminate |].
  apply (border_step_covers_frame env_800x600 2 None window_small []);
    first [reflexivity | discriminate].
Defined.

(** X8: on a viewport of positive size, the padding rectangles that lines
    86-94 emit cover every point of the viewport (as high as
    [available_height()]) that is outside the bounding box of the windows:
    together with the bounding box they leave no part of it unpainted. *)
Theorem padding_covers_viewport env windows :
  (0 < viewport_width env)%Z -> (0 < viewport_height env)%Z ->
  padding_rects env windows
  = inr (flat_map (emit_rect env) (spec_padding env windows))
  /\ (forall px py,
        (0 <= px)%Q -> (px <= inject_Z (viewport_width env))%Q ->
        (0 <= py)%Q -> (py <= inject_Z (available_height env))%Q ->
        let '(left_edge, right_edge, top_edge, bottom_edge) :=
          edges env windows in
        ((inject_Z left_edge <= px)%Q /\ (px <= inject_Z right_edge)%Q
         /\ (inject_Z top_edge <= py)%Q /\ (py <= inject_Z bottom_edge)%Q)
        \/ (exists r, In r (spec_padding env windows) /\ covers r px py)).
Proof.
  intros Hw Hh.
  assert (Hz : zero_viewport env = false) by (apply zero_viewport_false; lia).
  split; [rewrite padding_rects_eq, Hz; reflexivity |].
  intros px py X0 X1 Y0 Y1. unfold spec_padding.
  destruct (edges env windows) as [[[le re] te] be].
  change 0%Q with (inject_Z 0) in X0, Y0.
  destruct (Qlt_le_dec px (inject_Z le)) as [L | L].
  { right. assert (Hle : (le >? 0)%Z = true).
    { apply Z.gtb_lt. rewrite Zlt_Qlt. lra. }
    rewrite Hle. eexists. split; [left; reflexivity |].
    unfold covers. cbn [r_left r_right r_top r_bottom]. split_and!; lra. }
  destruct (Qlt_le_dec py (inject_Z te)) as [T | T].
  { right. assert (Hte : (te >? 0)%Z = true).
    { apply Z.gtb_lt. rewrite Zlt_Qlt. lra. }
    rewrite Hte. eexists.
    split; [apply in_or_app; right; left; reflexivity |].
    unfold covers. cbn [r_left r_right r_top r_bottom]. split_and!; lra. }
  destruct (Qlt_le_dec (inject_Z re) px) as [R | R].
  { right. assert (Hre : (re <? viewport_width env)%Z = true).
    { apply Z.ltb_lt. rewrite Zlt_Qlt. lra. }
    rewrite Hre. eexists.
    split; [apply in_or_app; right; apply in_or_app; right; left;
            reflexivity |].
    unfold covers. cbn [r_left r_right r_top r_bottom]. split_and!; lra. }
  destruct (Qlt_le_dec (inject_Z be) py) as [B | B].
  { right. assert (Hbe : (be <? available_height env)%Z = true).
    { apply Z.ltb_lt. rewrite Zlt_Qlt. lra. }
    rewrite Hbe. eexists.
    split; [apply in_or_app; right; apply in_or_app; right;
            apply in_or_app; right; left; reflexivity |].
    unfold covers. cbn [r_left r_right r_top r_bottom]. split_and!; lra. }
  left. split_and!; assumption.
Qed.

Lemma padding_covers_viewport_witness :
  (0 < viewport_width env_800x600)%Z
  /\ (0 < viewport_height env_800x600)%Z
  /\ padding_rects env_800x600 [window_small]
     = inr (flat_map (emit_rect env_800x600)
              (spec_padding env_800x600 [window_small])).
Proof.
  split; [reflexivity |]. split; [reflexivity |].
  apply (padding_covers_viewport env_800x600 [window_small]); reflexivity.
Defined.

(** ** Exceptions *)

(** X9: [as_rect] raises [ZeroDivisionError] exactly when the viewport has
    a zero width or height, whatever the rectangle, and no other exception;
    when it returns it has yielded 12 scalars. *)
Theorem as_rect_raises_iff env (l t r b c : Z) :
  (as_rect env l t r b c = inl ZeroDivisionError
   <-> viewport_width env = 0%Z \/ viewport_height env = 0%Z)
  /\ as_rect env l t r b c <> inl IndexError
  /\ (forall v, as_rect env l t r b c = inr v -> length v = 12%nat).
Proof.
  rewrite as_rect_eq, <- zero_viewport_true.
  destruct (zero_viewport env); unfold raise, ret; split_and!;
    try split; try congruence.
  intros v [= <-]. reflexivity.
Qed.

(** X10: [__call__] never raises [IndexError]: every array write of lines
    109-114 is in range.  It raises [ZeroDivisionError] exactly when the
    viewport has a zero width or height and there is a rectangle to emit,
    and then nothing has been assigned: with no rectangle to emit it
    returns even on such a viewport. *)
Theorem call_raises_iff env self windows active_window draw :
  (call env self windows active_window draw = inl ZeroDivisionError
   <-> (viewport_width env = 0%Z \/ viewport_height env = 0%Z)
       /\ spec_frame env (border_width self) windows active_window draw <> [])
  /\ call env self windows active_window draw <> inl IndexError.
Proof.
  rewrite call_eq, <- zero_viewport_true. cbv zeta.
  destruct (zero_viewport env);
    [destruct (spec_frame _ _ _ _ _) |]; unfold raise, ret;
    split; try split; try congruence; intuition congruence.
Qed.

(** ** The colour slots and the number of rectangles *)

Lemma emit_color_slots env (rs : list Rect) :
  forall k v,
    flat_map (emit_rect env) rs !! (3 * k + 2)%nat = Some v ->
    exists c, v = PyInt (color_index c).
Proof.
  induction rs as [| r rs IH]; intros k v H; [discriminate H |].
  cbn [flat_map] in H.
  destruct (decide (k < 4)%nat) as [Hk | Hk].
  - rewrite lookup_app_l in H by (unfold emit_rect; rewrite emit_length; lia).
    exists (r_color r).
    destruct k as [| [| [| [| k]]]]; [| | | | lia];
      cbn in H; congruence.
  - rewrite lookup_app_r in H by (unfold emit_rect; rewrite emit_length; lia).
    unfold emit_rect at 1 in H. rewrite emit_length in H.
    replace (3 * k + 2 - 12)%nat with (3 * (k - 4) + 2)%nat in H by lia.
    apply (IH _ _ H).
Qed.

(** X11: in every frame [__call__] produces, the third scalar of every
    vertex is 0, 1 or 2: the vertex shader's [colors[uint(rect[2])]] stays
    inside its array of 3 colours. *)
Theorem call_color_slots env self windows active_window draw :
  match call env self windows active_window draw with
  | inr self' =>
      forall k q,
        rects self' !! (3 * k + 2)%nat = Some q ->
        q = of_int 0 \/ q = of_int 1 \/ q = of_int 2
  | inl e =>
      e = ZeroDivisionError
      /\ (viewport_width env = 0%Z \/ viewport_height env = 0%Z)
  end.
Proof.
  destruct (call_cases env self windows active_window draw)
    as [-> | [-> Hz]]; [| split; [reflexivity | apply zero_viewport_true, Hz]].
  unfold packed. attrs. intros k q H.
  rewrite list_lookup_fmap in H.
  destruct (_ !! _) as [v |] eqn:Hv; [| discriminate H].
  injection H as <-.
  apply emit_color_slots in Hv as [c ->].
  destruct c; cbn; auto.
Qed.

Lemma spec_padding_length env windows :
  (length (spec_padding env windows) <= 4)%nat.
Proof.
  unfold spec_padding. destruct (edges env windows) as [[[le re] te] be].
  destruct (le >? 0)%Z, (te >? 0)%Z, (re <? viewport_width env)%Z,
           (be <? available_height env)%Z; cbn; lia.
Qed.

Lemma spec_rings_length bw active_window windows :
  length (flat_map (spec_ring bw active_window) windows)
  = (4 * length windows)%nat.
Proof.
  induction windows as [| w ws IH]; [reflexivity |].
  cbn [flat_map]. rewrite length_app, IH. cbn [length spec_ring]. lia.
Qed.

(** X12: a frame holds at most 4 padding rectangles and, when borders are
    drawn, 4 rectangles for each window: [num_of_rects] is that sum, at
    most [4 + 4 * len(windows)]. *)
Theorem call_num_of_rects env self windows active_window draw :
  match call env self windows active_window draw with
  | inr self' =>
      num_of_rects self' =
        (length (spec_padding env windows)
         + (if draw && (0 <? border_width self)%Z
            then 4 * length windows else 0))%nat
      /\ (length (spec_padding env windows) <= 4)%nat
      /\ (num_of_rects self' <= 4 + 4 * length windows)%nat
  | inl e =>
      e = ZeroDivisionError
      /\ (viewport_width env = 0%Z \/ viewport_height env = 0%Z)
  end.
Proof.
  destruct (call_cases env self windows active_window draw)
    as [-> | [-> Hz]]; [| split; [reflexivity | apply zero_viewport_true, Hz]].
  unfold packed. attrs.
  rewrite flat_map_emit_length, (Nat.mul_comm 12), Nat.div_mul by lia.
  unfold spec_frame, spec_borders. rewrite length_app.
  pose proof (spec_padding_length env windows) as Hp.
  destruct (draw && (0 <? border_width self)%Z).
  - rewrite spec_rings_length. lia.
  - cbn [length]. lia.
Qed.

(** ** Sequences of calls and renders *)

Lemma replay_app (t1 t2 : list gl_call) :
  forall buffer,
    replay buffer (t1 ++ t2) =
      match replay buffer t1 with
      | Some buffer' => replay buffer' t2
      | None => None
      end.
Proof.
  induction t1 as [| c t1 IH]; intros buffer; [reflexivity |].
  destruct c; cbn [replay app]; try apply IH.
  - destruct (_ =? _)%Z; [apply IH | reflexivity].
  - destruct (draw_fits _ _ _ _); [apply IH | reflexivity].
Qed.

Lemma descriptors_fit (len n : nat) :
  (12 * n <= len)%nat ->
  forall m a, (a + m <= n)%nat ->
    forallb
      (fun '(f, c) =>
         (0 <=? f)%Z && (0 <=? c)%Z && (3 * (f + c) <=? Z.of_nat len)%Z)
      (combine (map (fun k => (4 * Z.of_nat k)%Z) (seq a m))
         (replicate m 4%Z))
    = true.
Proof.
  intros Hlen. induction m as [| m IH]; intros a Ha; [reflexivity |].
  cbn [seq map replicate combine forallb].
  rewrite IH by lia.
  rewrite ?andb_true_r, ?andb_true_iff, ?Z.leb_le. lia.
Qed.

Lemma packed_draw_fits self (scalars : list pynum) :
  (length scalars mod 12 = 0)%nat ->
  draw_fits (rects (packed self scalars)) (starts (packed self scalars))
    (counts (packed self scalars)) (num_of_rects (packed self scalars))
  = true.
Proof.
  intros Hmod. unfold packed, draw_fits. attrs.
  rewrite !length_map, length_seq, length_replicate, !Nat.eqb_refl.
  cbn [andb]. apply (descriptors_fit _ (length scalars / 12)).
  - pose proof (Nat.div_mod_eq (length scalars) 12). lia.
  - lia.
Qed.

Lemma step_gpu_inv self buffer o :
  gpu_inv self buffer ->
  exists buffer',
    replay buffer (snd (step self o)) = Some buffer'
    /\ gpu_inv (fst (step self o)) buffer'.
Proof.
  intros [Hpal Hinv]. destruct o as [env ws a d |]; cbn [step].
  - destruct (call_cases env self ws a d) as [-> | [-> _]]; cbn [fst snd].
    + exists buffer. split; [reflexivity |].
      unfold gpu_inv. split; [exact Hpal |]. intros _.
      split; [apply packed_draw_fits, flat_map_emit_mod |].
      cbn [packed is_dirty]. discriminate.
    + exists buffer. split; [reflexivity | split; assumption].
  - unfold render. destruct (can_render self) eqn:Hc; cbn [negb].
    + destruct (Hinv eq_refl) as [Hfit Hbuf].
      destruct (is_dirty self) eqn:Hd; cbn [fst snd].
      * exists (rects self). attrs. split.
        -- cbn [app BordersProgram.send_data BordersProgram.set_colors
                replay].
           rewrite Hpal, Hfit. reflexivity.
        -- split; [exact Hpal |]. attrs. intros _. split; [exact Hfit | reflexivity].
      * exists buffer. simpl. split.
        -- rewrite (Hbuf eq_refl), Hfit. reflexivity.
        -- split; [exact Hpal |]. intros _. rewrite Hd. split; assumption.
    + exists buffer. cbn [fst snd]. split; [reflexivity |].
      split; [exact Hpal |]. rewrite Hc. discriminate.
Qed.

Lemma run_gpu_inv (ops : list op) :
  forall self buffer,
    gpu_inv self buffer ->
    exists buffer',
      replay buffer (snd (run self ops)) = Some buffer'
      /\ gpu_inv (fst (run self ops)) buffer'.
Proof.
  induction ops as [| o ops IH]; intros self buffer Hinv.
  - exists buffer. split; [reflexivity | assumption].
  - cbn [run].
    destruct (step_gpu_inv self buffer o Hinv) as (b1 & Hr1 & Hinv1).
    destruct (step self o) as [s1 t1]. cbn [fst snd] in *.
    destruct (IH s1 b1 Hinv1) as (b2 & Hr2 & Hinv2).
    destruct (run s1 ops) as [s2 t2]. cbn [fst snd] in *.
    exists b2. rewrite replay_app, Hr1. split; assumption.
Qed.

Lemma as_color_length (c : Z * Z * Z) : length (as_color c) = 3%nat.
Proof. destruct c as [[c0 c1] c2]. reflexivity. Qed.

Lemma init_gpu_inv dpi_logical opts : gpu_inv (init dpi_logical opts) [].
Proof.
  unfold gpu_inv, init. destruct dpi_logical as [dpix dpiy].
  cbn [color_buf can_render]. split; [| discriminate].
  rewrite !length_app, !as_color_length. reflexivity.
Qed.

(** X13: whatever calls and renders follow the construction of the object,
    every draw call reads only vertices of the vertex data sent last (each
    descriptor is a range of 4 vertices inside it, and there are as many
    descriptors as announced), and every upload of the 3 colours is given
    9 scalars; in the end the descriptors of an object that can render fit
    its vertex data. *)
Theorem run_draws_fit dpi_logical opts (ops : list op) :
  exists buffer,
    replay [] (snd (run (init dpi_logical opts) ops)) = Some buffer
    /\ gpu_inv (fst (run (init dpi_logical opts) ops)) buffer.
Proof. apply run_gpu_inv, init_gpu_inv. Qed.

Lemma step_config self o :
  border_width (fst (step self o)) = border_width self
  /\ color_buf (fst (step self o)) = color_buf self
  /\ (can_render self = true -> can_render (fst (step self o)) = true).
Proof.
  destruct o as [env ws a d |]; cbn [step].
  - destruct (call_cases env self ws a d) as [-> | [-> _]]; simpl;
      split_and!; auto.
  - unfold render.
    destruct (can_render self) eqn:Hc, (is_dirty self); simpl; rewrite ?Hc;
      split_and!; auto.
Qed.

(** X14: no sequence of calls and renders changes the border width or the
    palette of an object, and once the object can render it can render
    ever after. *)
Theorem run_config (ops : list op) self :
  border_width (fst (run self ops)) = border_width self
  /\ color_buf (fst (run self ops)) = color_buf self
  /\ (can_render self = true -> can_render (fst (run self ops)) = true).
Proof.
  revert self. induction ops as [| o ops IH]; intros self.
  - cbn. auto.
  - cbn [run]. pose proof (step_config self o) as (H1 & H2 & H3).
    destruct (step self o) as [s1 t1]. cbn [fst] in *.
    pose proof (IH s1) as (I1 & I2 & I3).
    destruct (run s1 ops) as [s2 t2]. cbn [fst] in *.
    split_and!; [congruence | congruence | auto].
Qed.

(** X15: the render that follows a call that returned uploads the frame of
    that call and the palette and draws it, and leaves the object clean:
    the next render draws the same frame without an upload. *)
Theorem call_then_render env self windows active_window draw self' :
  call env self windows active_window draw = inr self' ->
  render self' =
    (set_is_dirty false self',
     [program_enter;
      send_vertex_data "rect" (rects self');
      glUniform3fv "colors" 3 (color_buf self);
      glMultiDrawArrays GL_TRIANGLE_FAN (starts self') (counts self')
        (num_of_rects self');
      program_exit])
  /\ render (set_is_dirty false self') =
       (set_is_dirty false self',
        [program_enter;
         glMultiDrawArrays GL_TRIANGLE_FAN (starts self') (counts self')
           (num_of_rects self');
         program_exit]).
Proof.
  intros Hcall.
  destruct (call_cases env self windows active_window draw)
    as [H | [H _]]; rewrite H in Hcall; [| discriminate Hcall].
  injection Hcall as <-. split; reflexivity.
Qed.

Lemma call_then_render_witness :
  call env_800x600 sample_borders [window_full] (Some window_full) true
  = inr (packed sample_borders
           (flat_map (emit_rect env_800x600)
              (spec_ring 2 (Some window_full) window_full)))
  /\ fst (render
            (packed sample_borders
               (flat_map (emit_rect env_800x600)
                  (spec_ring 2 (Some window_full) window_full))))
     = set_is_dirty false
         (packed sample_borders
            (flat_map (emit_rect env_800x600)
               (spec_ring 2 (Some window_full) window_full))).
Proof.
  assert (H : call env_800x600 sample_borders [window_full]
                (Some window_full) true
              = inr (packed sample_borders
                       (flat_map (emit_rect env_800x600)
                          (spec_ring 2 (Some window_full) window_full))))
    by (vm_compute; reflexivity).
  split; [exact H |].
  destruct (call_then_render _ _ _ _ _ _ H) as [-> _]. reflexivity.
Defined.

Lemma step_uploads self o :
  (length (List.filter is_send (snd (step self o)))
   + (if is_dirty (fst (step self o)) then 1 else 0)
   <= (if is_call o then 1 else 0) + (if is_dirty self then 1 else 0))%nat.
Proof.
  destruct o as [env ws a d |]; cbn [step is_call].
  - destruct (call_cases env self ws a d) as [-> | [-> _]]; cbn;
      destruct (is_dirty self); lia.
  - unfold render.
    destruct (can_render self), (is_dirty self) eqn:Hd; simpl;
      rewrite ?Hd; simpl; lia.
Qed.

(** X16: the vertex data is sent at most once for each call of the object:
    in any sequence of operations on a fresh object the number of
    [send_vertex_data] is at most the number of calls, however many
    renders there are. *)
Theorem run_uploads_bounded dpi_logical opts (ops : list op) :
  (length (List.filter is_send (snd (run (init dpi_logical opts) ops)))
   <= length (List.filter is_call ops))%nat.
Proof.
  assert (H : forall ops self,
            (length (List.filter is_send (snd (run self ops)))
             <= length (List.filter is_call ops)
                + (if is_dirty self then 1 else 0))%nat).
  { clear. induction ops as [| o ops IH]; intros self; [cbn; lia |].
    cbn [run]. pose proof (step_uploads self o) as Hs.
    destruct (step self o) as [s1 t1]. cbn [fst snd] in *.
    pose proof (IH s1) as Hr.
    destruct (run s1 ops) as [s2 t2]. cbn [fst snd] in *.
    rewrite List.filter_app, length_app. cbn [List.filter].
    destruct (is_call o); cbn [length]; lia. }
  specialize (H ops (init dpi_logical opts)).
  assert (Hd : is_dirty (init dpi_logical opts) = false)
    by (destruct dpi_logical; reflexivity).
  rewrite Hd in H. lia.
Qed.
